(** * SharePoint client wrapper: a shallow embedding of [sharepoint.py] and
    [decorators.py]

  The wrapper is a dataclass with six public methods that delegate to two
  collaborators: the office365 client library (session provider and remote
  file/folder API) and the local filesystem.  Neither collaborator is part
  of the repository, so every invocation of one of them is an explicit
  [call] of a program; a [handler] gives the calls their meaning.  The
  Python source has no [try]/[except]/[raise]: an exception raised by a
  collaborator ends the running method and reaches the caller unchanged,
  which is what [exec] does.

  Module loading (the two source files import each other) is not modelled;
  the embedding covers the functions as they are written. *)

From Stdlib Require Import String Ascii List ZArith Bool Lia.
From Stdlib Require Import Strings.Byte.
Import ListNotations.
Local Open Scope string_scope.
Local Open Scope list_scope.

Set Warnings "-register-all".

(** ** Plain data *)

(** Python [bytes]. *)
Definition bytes : Type := list byte.

(** A Python exception value: its class name, its [args] and its
  [__cause__] (what [raise ... from e] records). *)
Inductive exn : Type :=
  | Exn (cls : string) (args : list string) (cause : option exn).

Definition exn_class (e : exn) : string :=
  match e with Exn cls _ _ => cls end.

Definition exn_args (e : exn) : list string :=
  match e with Exn _ args _ => args end.

Definition exn_cause (e : exn) : option exn :=
  match e with Exn _ _ cause => cause end.

(** The attributes of an office365 [File] handle that the source reads
  ([get_file_properties_from_folder], lines 208-214). *)
Module File.
Record t : Type := mk {
  unique_id : string;
  name : string;
  major_version : Z;
  minor_version : Z;
  length : Z;
  time_created : string;
  time_last_modified : string
}.
End File.

(** What [File.open_binary] returns; the source reads its [content]. *)
Module Response.
Record t : Type := mk { content : bytes }.
End Response.

(** Values stored in the dictionaries that
  [get_file_properties_from_folder] yields. *)
Inductive pyval : Type :=
  | PyStr (s : string)
  | PyInt (z : Z).

(** A Python [dict] with string keys, in insertion order. *)
Definition dict : Type := list (string * pyval).

Fixpoint dict_get (d : dict) (key : string) : option pyval :=
  match d with
  | [] => None
  | (k, v) :: rest => if String.eqb k key then Some v else dict_get rest key
  end.

(** ** [os.path] (posixpath) *)

Definition is_sep (c : ascii) : bool := Ascii.eqb c "/"%char.

Fixpoint has_sep (p : string) : bool :=
  match p with
  | EmptyString => false
  | String c rest => is_sep c || has_sep rest
  end.

(** [os.path.basename(p)] is [p[p.rfind('/') + 1:]]: what follows the last
  separator, or all of [p] when it has none. *)
Fixpoint basename (p : string) : string :=
  match p with
  | EmptyString => EmptyString
  | String c rest =>
    if has_sep rest then basename rest
    else if is_sep c then rest
    else p
  end.

Definition startswith_sep (p : string) : bool :=
  match p with
  | EmptyString => false
  | String c _ => is_sep c
  end.

Fixpoint endswith_sep (p : string) : bool :=
  match p with
  | EmptyString => false
  | String c EmptyString => is_sep c
  | String _ rest => endswith_sep rest
  end.

(** [os.path.join(a, b)] with two arguments. *)
Definition os_path_join (a b : string) : string :=
  if startswith_sep b then b
  else if (String.eqb a "" || endswith_sep a)%bool then a ++ b
  else a ++ "/" ++ b.

(** ** Collaborator calls, programs and their execution *)

Section Client.

(** Object handles of the office365 library; the wrapper never looks
    inside them. *)
Context {ClientContext UserCredential Folder : Type}.

Inductive call : Type :=
  (* office365: session provider *)
  | NewClientContext (base_url : string)
    (* ClientContext(base_url) *)
  | NewUserCredential (username password : string)
    (* UserCredential(username, password) *)
  | WithCredentials (ctx : ClientContext) (cred : UserCredential)
    (* ctx.with_credentials(cred) *)
  (* office365: remote file/folder API *)
  | GetFolderByServerRelativeUrl (ctx : ClientContext) (url : string)
    (* ctx.web.get_folder_by_server_relative_url(url) *)
  | GetFolderByServerRelativePath (ctx : ClientContext) (path : string)
    (* ctx.web.get_folder_by_server_relative_path(path) *)
  | FoldersAdd (parent : Folder) (new_name : string)
    (* parent.folders.add(new_name).execute_query() *)
  | ExpandGet (folder : Folder) (props : list string)
    (* folder.expand(props).get().execute_query() *)
  | FolderFiles (folder : Folder)
    (* folder.files *)
  | FolderFolders (folder : Folder)
    (* folder.folders *)
  | FolderUploadFile (folder : Folder) (file_name : string) (content : bytes)
    (* folder.upload_file(file_name, content).execute_query() *)
  | FileOpenBinary (ctx : ClientContext) (path : string)
    (* File.open_binary(ctx, path) *)
  (* local filesystem *)
  | OpenRead (path : string)
    (* with open(path, 'rb') as lf: lf.read() *)
  | PathExists (path : string)
    (* os.path.exists(path) *)
  | Makedirs (path : string) (exist_ok : bool)
    (* os.makedirs(path, exist_ok=exist_ok) *)
  | OpenWrite (path : string) (data : bytes).
    (* with open(path, 'wb') as f: f.write(data) *)

(** What a call evaluates to when it does not raise. *)
Definition answer (c : call) : Type :=
  match c with
  | NewClientContext _ => ClientContext
  | NewUserCredential _ _ => UserCredential
  | WithCredentials _ _ => ClientContext
  | GetFolderByServerRelativeUrl _ _ => Folder
  | GetFolderByServerRelativePath _ _ => Folder
  | FoldersAdd _ _ => Folder
  | ExpandGet _ _ => Folder
  | FolderFiles _ => list File.t
  | FolderFolders _ => list Folder
  | FolderUploadFile _ _ _ => File.t
  | FileOpenBinary _ _ => Response.t
  | OpenRead _ => bytes
  | PathExists _ => bool
  | Makedirs _ _ => unit
  | OpenWrite _ _ => unit
  end.

(** Calls that go to the office365 library, as opposed to the local
    filesystem. *)
Definition is_remote (c : call) : bool :=
  match c with
  | OpenRead _ | PathExists _ | Makedirs _ _ | OpenWrite _ _ => false
  | _ => true
  end.

Definition is_local (c : call) : bool := negb (is_remote c).

(** The path string a call hands to the remote API, when it resolves a
    folder or a file by path. *)
Definition remote_path (c : call) : option string :=
  match c with
  | GetFolderByServerRelativeUrl _ url => Some url
  | GetFolderByServerRelativePath _ path => Some path
  | FileOpenBinary _ path => Some path
  | _ => None
  end.

Fixpoint paths_sent (t : list call) : list string :=
  match t with
  | [] => []
  | c :: rest =>
      match remote_path c with
      | Some p => p :: paths_sent rest
      | None => paths_sent rest
      end
  end.

(** A method body: a value, or a collaborator call followed by the rest
    of the body. *)
Inductive prog (A : Type) : Type :=
  | Ret (a : A)
  | Do (c : call) (k : answer c -> prog A).

Arguments Ret {A} a.
Arguments Do {A} c k.

Fixpoint bind {A B : Type} (p : prog A) (f : A -> prog B) : prog B :=
  match p with
  | Ret a => f a
  | Do c k => Do c (fun x => bind (k x) f)
  end.

Definition perform (c : call) : prog (answer c) := Do c (fun x => Ret x).

Definition first_call {A : Type} (p : prog A) : option call :=
  match p with
  | Ret _ => None
  | Do c _ => Some c
  end.

(** The collaborators: each call returns or raises, and may change the
    world [W] (remote store and local disk). *)
Definition handler (W : Type) : Type :=
  forall c : call, W -> (exn + answer c) * W.

Record outcome (W A : Type) : Type := mk_outcome {
  trace : list call;        (* the calls issued, in order *)
  result : exn + A;         (* raised exception or returned value *)
  final : W                 (* the world afterwards *)
}.

Arguments mk_outcome {W A} trace result final.
Arguments trace {W A} o.
Arguments result {W A} o.
Arguments final {W A} o.

(** Run a body: a raising call ends it with that exception. *)
Fixpoint exec {W A : Type} (h : handler W) (p : prog A) (w : W)
  : outcome W A :=
  match p with
  | Ret a => mk_outcome [] (inr a) w
  | Do c k =>
      match h c w with
      | (inl e, w') => mk_outcome [c] (inl e) w'
      | (inr x, w') =>
          let o := exec h (k x) w' in
          mk_outcome (c :: trace o) (result o) (final o)
      end
  end.

(** A collaborator raises [e] in the course of a run: at the first call, or
  at a later one once the first has returned. *)
Inductive raises {W A : Type} (h : handler W)
  : prog A -> W -> exn -> Prop :=
  | raises_now (c : call) (k : answer c -> prog A) (w w' : W) (e : exn) :
    h c w = (inl e, w') -> raises h (Do c k) w e
  | raises_later (c : call) (k : answer c -> prog A) (w w' : W)
    (x : answer c) (e : exn) :
    h c w = (inr x, w') -> raises h (k x) w' e -> raises h (Do c k) w e.

End Client.

Arguments call : clear implicits.
Arguments prog : clear implicits.
Arguments handler : clear implicits.
Arguments Ret {ClientContext UserCredential Folder A} a.
Arguments Do {ClientContext UserCredential Folder A} c k.
Arguments mk_outcome {ClientContext UserCredential Folder W A} trace result final.
Arguments trace {ClientContext UserCredential Folder W A} o.
Arguments result {ClientContext UserCredential Folder W A} o.
Arguments final {ClientContext UserCredential Folder W A} o.
Arguments outcome : clear implicits.

Declare Scope prog_scope.
Delimit Scope prog_scope with prog.
Notation "x <- p ;; q" := (bind p (fun x => q))
  (at level 61, p at next level, right associativity) : prog_scope.

(** ** [decorators.py] and [sharepoint.py] *)

Section SharePointClass.

Context {ClientContext UserCredential Folder : Type}.

Local Notation "'prog'" := (prog ClientContext UserCredential Folder).
Local Open Scope prog_scope.

(** The dataclass [SharePoint] (lines 33-38). *)
Record SharePoint : Type := mk_SharePoint {
  url : string;
  username : string;
  password : string;
  site_name : string;
  doc : string;
  session : ClientContext
}.

(** The default of the field [doc] (line 37). *)
Definition default_doc : string := "Shared Documents".

(** The right-hand side of the assignment to [self.session]
  (lines 46-48): the context is built first, then the credential, then
  [with_credentials] is called. *)
Definition new_session (url username password site_name : string)
  : prog ClientContext :=
  ctx <- perform (NewClientContext (url ++ "/sites/" ++ site_name)) ;;
  cred <- perform (NewUserCredential username password) ;;
  perform (WithCredentials ctx cred).

(** [SharePoint.__post_init__] (lines 40-48), run by the generated
  [__init__] once the five configuration fields are set; it yields the
  instance with its [session]. *)
Definition __post_init__ (url username password site_name doc : string)
  : prog SharePoint :=
  s <- new_session url username password site_name ;;
  Ret (mk_SharePoint url username password site_name doc s).

(** [SharePoint(url, username, password, site_name, doc="Shared Documents")]. *)
Definition SharePoint_init (url username password site_name : string)
  (doc : option string) : prog SharePoint :=
  __post_init__ url username password site_name
  (match doc with Some d => d | None => default_doc end).

(** [decorator_root_folder] ([decorators.py], lines 4-13): [wrapper]
  replaces the path argument by the folder handle before [func] runs;
  [rest] stands for [*args, **kwargs]. *)
Definition decorator_root_folder {Rest R : Type}
  (func : SharePoint -> Folder -> Rest -> prog R)
  : SharePoint -> string -> Rest -> prog R :=
  fun self parent_folder rest =>
  folder_name <- perform (GetFolderByServerRelativeUrl (session self)
                            (doc self ++ "/" ++ parent_folder)) ;;
  func self folder_name rest.

(** [_get_local_file_content] (lines 249-258). *)
Definition _get_local_file_content (self : SharePoint) (local_file : string)
  : prog bytes :=
  perform (OpenRead local_file).

(** [_send_file_to_sharepoint] (lines 260-273). *)
Definition _send_file_to_sharepoint (self : SharePoint)
  (file_name folder_name : string) (file_content : bytes) : prog unit :=
  target_folder <- perform (GetFolderByServerRelativePath (session self)
  ("/sites/" ++ site_name self ++ "/" ++ doc self ++ "/" ++ folder_name)) ;;
  _ <- perform (FolderUploadFile target_folder file_name file_content) ;;
  Ret tt.

(** [_get_sharepoint_file_content] (lines 219-229). *)
Definition _get_sharepoint_file_content (self : SharePoint) (source : string)
  : prog bytes :=
  file <- perform (FileOpenBinary (session self)
  ("/sites/" ++ site_name self ++ "/" ++ doc self ++ "/" ++ source)) ;;
  Ret (Response.content file).

(** [_save_file] (lines 231-247), a static method. *)
Definition _save_file (file_name : string) (file_obj : bytes)
  (destination : string) : prog unit :=
  present <- perform (PathExists destination) ;;
  _ <- (if negb present then perform (Makedirs destination true) else Ret tt) ;;
  perform (OpenWrite (os_path_join destination file_name) file_obj).

(** [upload_file] (lines 50-71). *)
Definition upload_file (self : SharePoint)
  (local_file_path sharepoint_destination : string) : prog unit :=
  file_content <- _get_local_file_content self local_file_path ;;
  _send_file_to_sharepoint self (basename local_file_path)
  sharepoint_destination file_content.

(** [download_file] (lines 73-96). *)
Definition download_file (self : SharePoint)
  (sharepoint_source destination : string) : prog unit :=
  file_obj <- _get_sharepoint_file_content self sharepoint_source ;;
  _save_file (basename sharepoint_source) file_obj destination.

(** The undecorated body of [create_folder] (line 118). *)
Definition create_folder_body (self : SharePoint) (parent_folder : Folder)
  (new_folder : string) : prog unit :=
  _ <- perform (FoldersAdd parent_folder new_folder) ;;
  Ret tt.

(** [create_folder] (lines 98-118). *)
Definition create_folder : SharePoint -> string -> string -> prog unit :=
  decorator_root_folder create_folder_body.

(** The undecorated body of [get_files_list] (lines 138-140). *)
Definition get_files_list_body (self : SharePoint) (parent_folder : Folder)
  (_ : unit) : prog (list File.t) :=
  _ <- perform (ExpandGet parent_folder ["Files"; "Folders"]) ;;
  perform (FolderFiles parent_folder).

(** [get_files_list] (lines 120-140). *)
Definition get_files_list (self : SharePoint) (parent_folder : string)
  : prog (list File.t) :=
  decorator_root_folder get_files_list_body self parent_folder tt.

(** The undecorated body of [get_folder_list] (lines 161-163). *)
Definition get_folder_list_body (self : SharePoint) (parent_folder : Folder)
  (_ : unit) : prog (list Folder) :=
  _ <- perform (ExpandGet parent_folder ["Folders"]) ;;
  perform (FolderFolders parent_folder).

(** [get_folder_list] (lines 142-163). *)
Definition get_folder_list (self : SharePoint) (parent_folder : string)
  : prog (list Folder) :=
  decorator_root_folder get_folder_list_body self parent_folder tt.

(** The dictionary built for one file (lines 207-215). *)
Definition file_properties (file : File.t) : dict :=
  [ ("file_id", PyStr (File.unique_id file));
  ("file_name", PyStr (File.name file));
  ("major_version", PyInt (File.major_version file));
  ("minor_version", PyInt (File.minor_version file));
  ("file_size", PyInt (File.length file));
  ("time_created", PyStr (File.time_created file));
  ("time_last_modified", PyStr (File.time_last_modified file)) ].

(** The generator [name] (lines 205-215) drained by [list(...)]
  (line 217): one dictionary per file, in iteration order. *)
Fixpoint name (files : list File.t) : list dict :=
  match files with
  | [] => []
  | file :: rest => file_properties file :: name rest
  end.

(** [get_file_properties_from_folder] (lines 165-217). *)
Definition get_file_properties_from_folder (self : SharePoint)
  (folder_name : string) : prog (list dict) :=
  files_list <- get_files_list self folder_name ;;
  Ret (name files_list).

End SharePointClass.

Arguments SharePoint : clear implicits.

(** ** The public operations as one family *)

Section Operations.

Context {ClientContext UserCredential Folder : Type}.

Local Notation "'prog'" := (prog ClientContext UserCredential Folder).
Local Notation "'SharePoint'" := (SharePoint ClientContext).
Local Open Scope prog_scope.

(** A call of one of the six public methods, with its arguments. *)
Inductive operation : Type :=
  | Op_upload_file (local_file_path sharepoint_destination : string)
  | Op_download_file (sharepoint_source destination : string)
  | Op_create_folder (parent_folder new_folder : string)
  | Op_get_files_list (parent_folder : string)
  | Op_get_folder_list (parent_folder : string)
  | Op_get_file_properties_from_folder (folder_name : string).

Definition op_result (o : operation) : Type :=
  match o with
  | Op_upload_file _ _ => unit
  | Op_download_file _ _ => unit
  | Op_create_folder _ _ => unit
  | Op_get_files_list _ => list File.t
  | Op_get_folder_list _ => list Folder
  | Op_get_file_properties_from_folder _ => list dict
  end.

Definition invoke (self : SharePoint) (o : operation) : prog (op_result o) :=
  match o with
  | Op_upload_file l d => upload_file self l d
  | Op_download_file s d => download_file self s d
  | Op_create_folder p n => create_folder self p n
  | Op_get_files_list p => get_files_list self p
  | Op_get_folder_list p => get_folder_list self p
  | Op_get_file_properties_from_folder f =>
    get_file_properties_from_folder self f
  end.

Definition op_name (o : operation) : string :=
  match o with
  | Op_upload_file _ _ => "upload_file"
  | Op_download_file _ _ => "download_file"
  | Op_create_folder _ _ => "create_folder"
  | Op_get_files_list _ => "get_files_list"
  | Op_get_folder_list _ => "get_folder_list"
  | Op_get_file_properties_from_folder _ => "get_file_properties_from_folder"
  end.

(** The remote path the caller supplies, relative to the document
  library. *)
Definition op_path (o : operation) : string :=
  match o with
  | Op_upload_file _ d => d
  | Op_download_file s _ => s
  | Op_create_folder p _ => p
  | Op_get_files_list p => p
  | Op_get_folder_list p => p
  | Op_get_file_properties_from_folder f => f
  end.

(** The operations whose remote path argument names a folder. *)
Definition takes_folder_path (o : operation) : bool :=
  match o with
  | Op_download_file _ _ => false
  | _ => true
  end.

(** The string [sites/{site_name}/{doc}/{path}], with or without a leading
  separator. *)
Definition site_prefixed (lead : string) (self : SharePoint) (path : string)
  : string :=
  lead ++ "sites/" ++ site_name self ++ "/" ++ doc self ++ "/" ++ path.

(** The string [{doc}/{path}], relative to the site the session is bound
  to. *)
Definition library_prefixed (self : SharePoint) (path : string) : string :=
  doc self ++ "/" ++ path.

(** The path string each operation hands to the remote API. *)
Definition path_on_the_wire (self : SharePoint) (o : operation) : string :=
  match o with
  | Op_upload_file _ _ | Op_download_file _ _ =>
    site_prefixed "/" self (op_path o)
  | _ => library_prefixed self (op_path o)
  end.

(** The folder lookup that [decorator_root_folder] performs. *)
Definition shared_lookup (self : SharePoint) (path : string)
  : call ClientContext UserCredential Folder :=
  GetFolderByServerRelativeUrl (session self) (library_prefixed self path).

End Operations.

Arguments operation : clear implicits.

(** ** The error taxonomy of the specification *)

Definition spec_error_kinds : list string :=
  ["AuthConfigError"; "RemoteIOError"; "LocalIOError"].

(** [e] is an exception of one of the three kinds that wraps [inner] and
  carries the operation name and the attempted path. *)
Definition wraps (op path : string) (inner e : exn) : Prop :=
  In (exn_class e) spec_error_kinds /\
  In op (exn_args e) /\ In path (exn_args e) /\
  exn_cause e = Some inner.

(** ** In-memory collaborators

  A small remote store and local disk on which the programs can be run:
  handles are the strings they were created from, the remote store maps
  the full path of a file to its handle and content, and the disk maps
  paths to contents. *)

Module InMemory.

Definition ClientContext : Type := string.
Definition UserCredential : Type := (string * string)%type.
Definition Folder : Type := string.

Record world : Type := mk_world {
  accounts : list (string * string);          (* accepted credentials *)
  remote_files : list (string * (File.t * bytes));
  remote_folders : list (string * string);    (* (parent, name) *)
  disk_files : list (string * bytes);
  disk_dirs : list string
}.

Fixpoint assoc {V : Type} (l : list (string * V)) (key : string) : option V :=
  match l with
  | [] => None
  | (k, v) :: rest => if String.eqb k key then Some v else assoc rest key
  end.

Definition pair_eqb (a b : string * string) : bool :=
  (String.eqb (fst a) (fst b) && String.eqb (snd a) (snd b))%bool.

Definition not_found (path : string) : exn :=
  Exn "FileNotFoundError" ["2"; "No such file or directory"; path] None.

Definition request_failed (status : string) : exn :=
  Exn "ClientRequestException" [status] None.

(** The handle of a file uploaded as [file_name] with content [data]. *)
Definition uploaded (file_name : string) (data : bytes) : File.t :=
  File.mk "" file_name 1 0 (Z.of_nat (List.length data)) "" "".

Definition in_folder (folder : string) (entry : string * (File.t * bytes))
  : bool :=
  String.eqb (fst entry) (folder ++ "/" ++ File.name (fst (snd entry)))%string.

Definition is_dir (w : world) (path : string) : bool :=
  existsb (String.eqb path) (disk_dirs w).

Definition exists_on_disk (w : world) (path : string) : bool :=
  (is_dir w path ||
 match assoc (disk_files w) path with Some _ => true | None => false end)%bool.

(** A file can be created where its directory exists. *)
Definition writable (w : world) (path : string) : bool :=
  (negb (has_sep path) ||
 existsb (fun d => String.eqb (os_path_join d (basename path)) path)
   (disk_dirs w))%bool.

Definition serve : handler ClientContext UserCredential Folder world :=
  fun c =>
  match c as c0
    return world ->
           (exn + @answer ClientContext UserCredential Folder c0) * world
  with
  | NewClientContext base_url => fun w => (inr base_url, w)
  | NewUserCredential u p => fun w => (inr (u, p), w)
  | WithCredentials ctx cred => fun w =>
      if existsb (pair_eqb cred) (accounts w) then (inr ctx, w)
      else (inl (request_failed "401"), w)
  | GetFolderByServerRelativeUrl _ url => fun w => (inr url, w)
  | GetFolderByServerRelativePath _ path => fun w => (inr path, w)
  | FoldersAdd parent new_name => fun w =>
      (inr (parent ++ "/" ++ new_name)%string,
       mk_world (accounts w) (remote_files w)
         ((parent, new_name) :: remote_folders w)
         (disk_files w) (disk_dirs w))
  | ExpandGet folder _ => fun w => (inr folder, w)
  | FolderFiles folder => fun w =>
      (inr (map (fun e => fst (snd e))
              (filter (in_folder folder) (remote_files w))), w)
  | FolderFolders folder => fun w =>
      (inr (map (fun e => (fst e ++ "/" ++ snd e)%string)
              (filter (fun e => String.eqb (fst e) folder)
                 (remote_folders w))), w)
  | FolderUploadFile folder file_name data => fun w =>
      let f := uploaded file_name data in
      (inr f,
       mk_world (accounts w)
         (((folder ++ "/" ++ file_name)%string, (f, data)) :: remote_files w)
         (remote_folders w) (disk_files w) (disk_dirs w))
  | FileOpenBinary _ path => fun w =>
      match assoc (remote_files w) path with
      | Some (_, data) => (inr (Response.mk data), w)
      | None => (inl (request_failed "404"), w)
      end
  | OpenRead path => fun w =>
      match assoc (disk_files w) path with
      | Some data => (inr data, w)
      | None => (inl (not_found path), w)
      end
  | PathExists path => fun w => (inr (exists_on_disk w path), w)
  | Makedirs path exist_ok => fun w =>
      if (exists_on_disk w path && negb exist_ok)%bool
      then (inl (Exn "FileExistsError" ["17"; "File exists"; path] None), w)
      else (inr tt,
            mk_world (accounts w) (remote_files w) (remote_folders w)
              (disk_files w) (path :: disk_dirs w))
  | OpenWrite path data => fun w =>
      if writable w path
      then (inr tt,
            mk_world (accounts w) (remote_files w) (remote_folders w)
              ((path, data) :: disk_files w) (disk_dirs w))
      else (inl (not_found path), w)
  end.

(** The bytes of [a,b,c\n1,2,3]. *)
Definition test_csv : bytes :=
  [x61; x2c; x62; x2c; x63; x0a; x31; x2c; x32; x2c; x33].

Definition report_jpg : File.t :=
  File.mk "6956" "test.jpg" 1 0 2520331
  "2021-12-24T14:39:30Z" "2021-12-24T14:39:35Z".

Definition report_csv : File.t :=
  File.mk "3ddb" "test.csv" 29 0 32448
  "2023-03-30T06:11:29Z" "2023-04-07T13:15:08Z".

(** One account, two files in the folder [General] of the library, and a
  local file [examples/test.csv]. *)
Definition w0 : world :=
  mk_world
  [("user@example.com", "secret")]
  [("Shared Documents/General/test.jpg", (report_jpg, []));
   ("Shared Documents/General/test.csv", (report_csv, []))]
  [("Shared Documents/General", "Reports")]
  [("examples/test.csv", test_csv)]
  ["examples"].

(** A client of the site [ps.all] with the default library. *)
Definition share : SharePoint ClientContext :=
  mk_SharePoint "https://company.sharepoint.com" "user@example.com" "secret"
  "ps.all" default_doc "https://company.sharepoint.com/sites/ps.all".

(** What the disk and the remote store hold under a path. *)
Definition on_disk (w : world) (path : string) : option bytes :=
  assoc (disk_files w) path.

End InMemory.

(** ** What a call does *)

Section Footprint.

Context {ClientContext UserCredential Folder : Type}.

Local Notation "'call'" := (call ClientContext UserCredential Folder).

(** The calls that build a session ([__post_init__], lines 46-48). *)
Definition is_provider_call (c : call) : bool :=
  match c with
  | NewClientContext _ | NewUserCredential _ _ | WithCredentials _ _ => true
  | _ => false
  end.

(** The session a remote API call is made through. *)
Definition api_context (c : call) : option ClientContext :=
  match c with
  | GetFolderByServerRelativeUrl ctx _ => Some ctx
  | GetFolderByServerRelativePath ctx _ => Some ctx
  | FileOpenBinary ctx _ => Some ctx
  | _ => None
  end.

(** The calls that create something in the remote store. *)
Definition changes_remote (c : call) : bool :=
  match c with
  | FoldersAdd _ _ | FolderUploadFile _ _ _ => true
  | _ => false
  end.

(** The calls that create something on the local disk. *)
Definition changes_disk (c : call) : bool :=
  match c with
  | Makedirs _ _ | OpenWrite _ _ => true
  | _ => false
  end.

(** The local paths opened for writing, in order. *)
Fixpoint paths_written (t : list call) : list string :=
  match t with
  | [] => []
  | OpenWrite p _ :: rest => p :: paths_written rest
  | _ :: rest => paths_written rest
  end.

(** The separator [os.path.join] puts after [a] when the second component
  is relative. *)
Definition join_sep (a : string) : string :=
  if (String.eqb a "" || endswith_sep a)%bool then "" else "/".

(** The run that resolves [path] as [decorator_root_folder] does and then
  runs [body] on the handle: the lookup alone when it raises, the lookup
  followed by the run of [body] when it returns. *)
Definition resolved_run {W R : Type}
  (h : handler ClientContext UserCredential Folder W)
  (self : SharePoint ClientContext) (path : string)
  (body : Folder -> prog ClientContext UserCredential Folder R) (w : W)
  : outcome ClientContext UserCredential Folder W R :=
  match h (shared_lookup self path) w with
  | (inl e, w1) => mk_outcome [shared_lookup self path] (inl e) w1
  | (inr folder, w1) =>
      let o := exec h (body folder) w1 in
      mk_outcome (shared_lookup self path :: trace o) (result o) (final o)
  end.

(** A lookup by [get_folder_by_server_relative_url], the method
  [decorator_root_folder] uses. *)
Definition is_lookup_by_url (c : call) : bool :=
  match c with
  | GetFolderByServerRelativeUrl _ _ => true
  | _ => false
  end.

End Footprint.

(** ** In-memory collaborators with injected failures *)

Module Faulty.

(** As [InMemory.serve], except that the calls selected by [fails] raise
  [e] and leave the world as it is. *)
Definition serve
  (fails : call InMemory.ClientContext InMemory.UserCredential
             InMemory.Folder -> bool)
  (e : exn)
  : handler InMemory.ClientContext InMemory.UserCredential InMemory.Folder
      InMemory.world :=
  fun c w => if fails c then (inl e, w) else InMemory.serve c w.

Definition is_makedirs
  (c : call InMemory.ClientContext InMemory.UserCredential InMemory.Folder)
  : bool :=
  match c with Makedirs _ _ => true | _ => false end.

Definition is_folder_lookup
  (c : call InMemory.ClientContext InMemory.UserCredential InMemory.Folder)
  : bool :=
  match c with
  | GetFolderByServerRelativeUrl _ _ => true
  | GetFolderByServerRelativePath _ _ => true
  | _ => false
  end.

Definition denied : exn :=
  Exn "PermissionError" ["13"; "Permission denied"] None.

Definition unreachable : exn := Exn "ConnectionError" [] None.

End Faulty.

(** * Properties *)

(** ** [os.path] *)

Lemma basename_has_no_sep (p : string) : has_sep (basename p) = false.
Proof.
induction p as [|c rest IH]; simpl; [reflexivity|].
destruct (has_sep rest) eqn:Hrest; [exact IH|].
destruct (is_sep c) eqn:Hc; [exact Hrest|].
simpl. now rewrite Hc, Hrest.
Qed.

Lemma has_sep_app (a b : string) :
  has_sep (a ++ b) = (has_sep a || has_sep b)%bool.
Proof.
induction a as [|c rest IH]; simpl; [reflexivity|].
now rewrite IH, orb_assoc.
Qed.

(** [basename] undoes the joining of a directory and a single component. *)
Lemma basename_of_joined (dir leaf : string) :
  has_sep leaf = false -> basename (dir ++ "/" ++ leaf) = leaf.
Proof.
intros Hleaf.
induction dir as [|c rest IH]; simpl.
- now rewrite Hleaf.
- rewrite has_sep_app. simpl. now rewrite orb_true_r.
Qed.

(** [basename p] is the suffix of [p] that follows its last separator. *)
Lemma basename_is_suffix (p : string) :
  exists dir, p = (dir ++ basename p)%string /\
              (dir = ""%string \/ endswith_sep dir = true).
Proof.
induction p as [|c rest IH]; simpl.
- exists ""%string. auto.
- destruct (has_sep rest) eqn:Hrest.
  + destruct IH as (dir & Heq & Hdir).
    exists (String c dir). simpl. split; [now rewrite <- Heq|].
    right. destruct Hdir as [->|Hend].
    * simpl in Heq. rewrite Heq in Hrest.
      now rewrite basename_has_no_sep in Hrest.
    * destruct dir; [discriminate|exact Hend].
  + destruct (is_sep c) eqn:Hc.
    * exists (String c ""). simpl. auto.
    * exists ""%string. auto.
Qed.

(** ** Execution *)

Section Execution.

Context {ClientContext UserCredential Folder W : Type}.
Variable h : handler ClientContext UserCredential Folder W.

Local Notation "'prog'" := (prog ClientContext UserCredential Folder).

(** Running [bind p f]: [p] first, and [f] on its value unless [p]
  raised. *)
Lemma exec_bind {A B : Type} (p : prog A) (f : A -> prog B) (w : W) :
  exec h (bind p f) w =
  match result (exec h p w) with
  | inl e => mk_outcome (trace (exec h p w)) (inl e) (final (exec h p w))
  | inr a =>
      mk_outcome
        (trace (exec h p w) ++ trace (exec h (f a) (final (exec h p w))))
        (result (exec h (f a) (final (exec h p w))))
        (final (exec h (f a) (final (exec h p w))))
  end.
Proof.
revert w. induction p as [a|c k IH]; intros w; simpl.
- now destruct (exec h (f a) w).
- destruct (h c w) as [[e|x] w']; simpl; [reflexivity|].
  rewrite IH. now destruct (result (exec h (k x) w')).
Qed.

(** An exception that ends a run is the one raised by the last call
  issued. *)
Lemma exec_raised_by_last_call {A : Type} (p : prog A) (w : W) (e : exn) :
  result (exec h p w) = inl e ->
  exists t c w0,
    trace (exec h p w) = t ++ [c] /\ h c w0 = (inl e, final (exec h p w)).
Proof.
revert w. induction p as [a|c k IH]; intros w; simpl.
- discriminate.
- destruct (h c w) as [[e'|x] w'] eqn:Hc; simpl.
  + intros [= ->]. exists [], c, w. auto.
  + intros Hres. destruct (IH x w' Hres) as (t & c' & w0 & Ht & Hraise).
    exists (c :: t), c', w0. simpl. now rewrite Ht.
Qed.

(** A run fails with [e] exactly when a collaborator raised [e] in its
  course. *)
Lemma exec_fails_iff_raises {A : Type} (p : prog A) (w : W) (e : exn) :
  raises h p w e <-> result (exec h p w) = inl e.
Proof.
split.
- induction 1 as [c k w w' e Hc|c k w w' x e Hc _ IH]; simpl; rewrite Hc;
    [reflexivity|exact IH].
- revert w. induction p as [a|c k IH]; intros w; simpl; [discriminate|].
  destruct (h c w) as [[e'|x] w'] eqn:Hc; simpl.
  + intros [= ->]. eapply raises_now; eassumption.
  + intros Hres. eapply raises_later; [eassumption|]. now apply IH.
Qed.

End Execution.

(** ** The claims *)

(** Case analysis on the answers of the collaborators met along a run. *)
Ltac answer_calls h :=
  repeat match goal with
         | |- context [h ?c ?w] =>
             let e := fresh "e" in
             let x := fresh "x" in
             let w' := fresh "w" in
             destruct (h c w) as [[e|x] w']; simpl
         end.

Section Claims.

Context {ClientContext UserCredential Folder W : Type}.
Variable h : handler ClientContext UserCredential Folder W.

Local Notation "'prog'" := (prog ClientContext UserCredential Folder).
Local Notation "'SharePoint'" := (SharePoint ClientContext).
Local Open Scope prog_scope.

(** C1 (as amended).  The path strings an operation hands to the remote
  API: [upload_file] (once the local file is read) and [download_file]
  send [/sites/{site_name}/{doc}/{path}]; [create_folder],
  [get_files_list], [get_folder_list] and
  [get_file_properties_from_folder] send [{doc}/{path}], without the
  site segment.  Nothing else is sent as a path. *)
Theorem paths_sent_by_operation (self : SharePoint) (o : operation) (w : W) :
  paths_sent (trace (exec h (invoke self o) w)) =
  match o with
  | Op_upload_file l _ =>
      match fst (h (OpenRead l) w) with
      | inl _ => []
      | inr _ => [site_prefixed "/" self (op_path o)]
      end
  | Op_download_file _ _ => [site_prefixed "/" self (op_path o)]
  | _ => [library_prefixed self (op_path o)]
  end.
Proof.
destruct o; simpl; answer_calls h; try reflexivity.
match goal with |- context [negb ?b] => destruct b end;
  simpl; answer_calls h; reflexivity.
Qed.

(** C2 (as amended).  When the session provider rejects the construction
  input with an exception [e], construction raises that same [e], after
  the one attempt (at most three provider calls, none repeated), and
  yields no instance, hence no session handle. *)
Theorem construction_fails_with_provider_error
  (url username password site_name : string) (doc : option string)
  (w : W) (e : exn) :
  result (exec h (new_session url username password site_name) w) = inl e ->
  let attempt := exec h (new_session url username password site_name) w in
  exec h (SharePoint_init url username password site_name doc) w =
    mk_outcome (trace attempt) (inl e) (final attempt) /\
  (List.length (trace attempt) <= 3)%nat /\
  NoDup (trace attempt).
Proof.
intros Hrej attempt. subst attempt. split.
- unfold SharePoint_init, __post_init__. rewrite exec_bind. now rewrite Hrej.
- clear Hrej. unfold new_session. simpl. answer_calls h;
    (split; [lia|]);
    repeat constructor; simpl; intuition discriminate.
Qed.

(** The generator drained by [list] is a [map]. *)
Lemma name_is_map (files : list File.t) : name files = map file_properties files.
Proof. induction files as [|f rest IH]; simpl; [reflexivity|now rewrite IH]. Qed.

(** C4 (as amended).  [create_folder], [get_files_list],
  [get_folder_list] and [get_file_properties_from_folder] (which is not
  decorated and hands its path on to [get_files_list]) begin every run
  with the same resolution step, the lookup
  [get_folder_by_server_relative_url] of [{doc}/{path}] through
  [self.session]: when it raises nothing else runs, and when it returns a
  handle the rest of the run is the body of the operation on that handle.
  [upload_file] takes a folder path too and does not go through that step:
  it reads the local file first, resolves the folder itself by
  [get_folder_by_server_relative_path] on
  [/sites/{site_name}/{doc}/{path}], and never looks a folder up by url. *)
Theorem folder_argument_resolution (self : SharePoint)
  (path new_folder local_file_path : string) (w : W) :
  exec h (create_folder self path new_folder) w =
    resolved_run h self path
      (fun folder => create_folder_body self folder new_folder) w /\
  exec h (get_files_list self path) w =
    resolved_run h self path
      (fun folder => get_files_list_body self folder tt) w /\
  exec h (get_folder_list self path) w =
    resolved_run h self path
      (fun folder => get_folder_list_body self folder tt) w /\
  exec h (get_file_properties_from_folder self path) w =
    resolved_run h self path
      (fun folder =>
         files_list <- get_files_list_body self folder tt ;;
         Ret (name files_list)) w /\
  (get_file_properties_from_folder self path : prog (list dict)) =
    (files_list <- get_files_list self path ;; Ret (name files_list)) /\
  first_call (upload_file self local_file_path path : prog unit)
    = Some (OpenRead local_file_path) /\
  existsb is_lookup_by_url
    (trace (exec h (upload_file self local_file_path path) w)) = false /\
  (upload_file self local_file_path path : prog unit) =
    (c <- perform (OpenRead local_file_path) ;;
     f <- perform (GetFolderByServerRelativePath (session self)
                     (site_prefixed "/" self path)) ;;
     _ <- perform (FolderUploadFile f (basename local_file_path) c) ;;
     Ret tt).
Proof.
unfold resolved_run, shared_lookup, library_prefixed.
repeat split; simpl; answer_calls h; reflexivity.
Qed.

(** C5.  [get_file_properties_from_folder] issues exactly the calls of
  [get_files_list] on the same folder and fails as it does; otherwise it
  returns the list holding, for each file handle returned and in the same
  order, the dictionary of that handle's [unique_id], [name],
  [major_version], [minor_version], [length], [time_created] and
  [time_last_modified], [file_size] being the handle's [length]. *)
Theorem file_properties_project_files_list (self : SharePoint)
  (folder_name : string) (w : W) :
  let listing := exec h (get_files_list self folder_name) w in
  exec h (get_file_properties_from_folder self folder_name) w =
    mk_outcome (trace listing)
      (match result listing with
       | inl e => inl e
       | inr files => inr (map file_properties files)
       end)
      (final listing) /\
  (forall files : list File.t,
      List.length (name files) = List.length files /\
      forall i, nth_error (name files) i
                = option_map file_properties (nth_error files i)) /\
  (forall file : File.t,
      file_properties file =
      [ ("file_id", PyStr (File.unique_id file));
        ("file_name", PyStr (File.name file));
        ("major_version", PyInt (File.major_version file));
        ("minor_version", PyInt (File.minor_version file));
        ("file_size", PyInt (File.length file));
        ("time_created", PyStr (File.time_created file));
        ("time_last_modified", PyStr (File.time_last_modified file)) ] /\
      dict_get (file_properties file) "file_size"
      = Some (PyInt (File.length file))).
Proof.
intros listing. subst listing. repeat split.
- unfold get_file_properties_from_folder. rewrite exec_bind.
  destruct (result (exec h (get_files_list self folder_name) w)) as [e|files];
    [reflexivity|].
  simpl. now rewrite app_nil_r, name_is_map.
- now rewrite name_is_map, length_map.
- intros i. now rewrite name_is_map, nth_error_map.
Qed.

(** C6.  When the local file is read and the destination folder resolved,
  [upload_file] issues exactly three calls: the read of the whole local
  file, the folder lookup, and one upload whose file name is the base name
  of the local path and whose bytes are the bytes read; it succeeds or
  fails as that upload does. *)
Theorem upload_sends_base_name_and_content (self : SharePoint)
  (local_file_path sharepoint_destination : string)
  (w w1 w2 : W) (data : bytes) (folder : Folder) :
  h (OpenRead local_file_path) w = (inr data, w1) ->
  h (GetFolderByServerRelativePath (session self)
       (site_prefixed "/" self sharepoint_destination)) w1
    = (inr folder, w2) ->
  let request :=
    FolderUploadFile folder (basename local_file_path) data in
  exec h (upload_file self local_file_path sharepoint_destination) w =
    mk_outcome
      [ OpenRead local_file_path;
        GetFolderByServerRelativePath (session self)
          (site_prefixed "/" self sharepoint_destination);
        request ]
      (match fst (h request w2) with inl e => inl e | inr _ => inr tt end)
      (snd (h request w2)).
Proof.
intros Hread Hfolder request. subst request.
unfold site_prefixed in Hfolder. simpl in Hfolder.
simpl. rewrite Hread. simpl. rewrite Hfolder. simpl.
now destruct (h _ w2) as [[e|x] w3].
Qed.

(** C7.  When the remote file is read and the local calls succeed,
  [download_file] reads the whole remote content, asks whether the
  destination exists, creates the directory tree when it does not
  ([exist_ok=True]), writes the content read to
  [os.path.join(destination, basename(sharepoint_source))], and returns. *)
Theorem download_writes_content_under_base_name (self : SharePoint)
  (sharepoint_source destination : string)
  (w w1 w2 w3 w4 : W) (response : Response.t) (present : bool) :
  h (FileOpenBinary (session self) (site_prefixed "/" self sharepoint_source))
    w = (inr response, w1) ->
  h (PathExists destination) w1 = (inr present, w2) ->
  (if present then w3 = w2
   else h (Makedirs destination true) w2 = (inr tt, w3)) ->
  h (OpenWrite (os_path_join destination (basename sharepoint_source))
       (Response.content response)) w3 = (inr tt, w4) ->
  exec h (download_file self sharepoint_source destination) w =
    mk_outcome
      ([ FileOpenBinary (session self)
           (site_prefixed "/" self sharepoint_source);
         PathExists destination ] ++
       (if present then [] else [Makedirs destination true]) ++
       [ OpenWrite (os_path_join destination (basename sharepoint_source))
           (Response.content response) ])
      (inr tt) w4.
Proof.
intros Hopen Hexists Hdir Hwrite.
unfold site_prefixed in Hopen. simpl in Hopen.
simpl. rewrite Hopen. simpl. rewrite Hexists.
destruct present; simpl.
- subst w3. now rewrite Hwrite.
- rewrite Hdir. simpl. now rewrite Hwrite.
Qed.

(** C8 (as amended).  No operation issues a call twice; an operation
  fails with [e] exactly when a collaborator raised [e] in its course; and
  the exception it fails with is the one its last call raised: the
  collaborator's exception reaches the caller as it is, with no wrapper
  around it. *)
Theorem failures_reach_the_caller_unchanged (self : SharePoint)
  (o : operation) (w : W) :
  NoDup (trace (exec h (invoke self o) w)) /\
  forall e : exn,
    (raises h (invoke self o) w e <->
     result (exec h (invoke self o) w) = inl e) /\
    (result (exec h (invoke self o) w) = inl e ->
     exists t c w0,
       trace (exec h (invoke self o) w) = t ++ [c] /\
       h c w0 = (inl e, final (exec h (invoke self o) w))).
Proof.
split;
  [|intros e; split;
    [apply exec_fails_iff_raises|apply exec_raised_by_last_call]].
destruct o; simpl; answer_calls h;
  try match goal with |- context [negb ?b] => destruct b end;
  simpl; answer_calls h;
  repeat constructor; simpl; intuition discriminate.
Qed.

(** C9.  Once the folder is resolved, [get_files_list] asks for the
  expansion of [Files] and [Folders] and returns the folder's [files] as the
  API reports them; [get_folder_list] asks for the expansion of [Folders]
  and returns the folder's [folders] as the API reports them. *)
Theorem listings_return_what_the_api_reports (self : SharePoint)
  (parent_folder : string) (w w1 : W) (folder : Folder) :
  h (shared_lookup self parent_folder) w = (inr folder, w1) ->
  (forall x w2 files w3,
      h (ExpandGet folder ["Files"; "Folders"]) w1 = (inr x, w2) ->
      h (FolderFiles folder) w2 = (inr files, w3) ->
      exec h (get_files_list self parent_folder) w =
        mk_outcome
          [ shared_lookup self parent_folder;
            ExpandGet folder ["Files"; "Folders"];
            FolderFiles folder ]
          (inr files) w3) /\
  (forall x w2 folders w3,
      h (ExpandGet folder ["Folders"]) w1 = (inr x, w2) ->
      h (FolderFolders folder) w2 = (inr folders, w3) ->
      exec h (get_folder_list self parent_folder) w =
        mk_outcome
          [ shared_lookup self parent_folder;
            ExpandGet folder ["Folders"];
            FolderFolders folder ]
          (inr folders) w3).
Proof.
intros Hlookup. unfold shared_lookup, library_prefixed in *.
simpl in Hlookup.
split; intros x w2 items w3 Hexpand Hitems;
  simpl; rewrite Hlookup; simpl; rewrite Hexpand; simpl; now rewrite Hitems.
Qed.

(** C10.  When reading the local file raises, [upload_file] has issued
  that read and nothing else: no call reaches the remote API, and whatever
  part of the world the local calls leave alone is as it was. *)
Theorem failed_local_read_sends_nothing (self : SharePoint)
  (local_file_path sharepoint_destination : string)
  (w w1 : W) (e : exn) :
  h (OpenRead local_file_path) w = (inl e, w1) ->
  let o := exec h (upload_file self local_file_path sharepoint_destination) w in
  o = mk_outcome [OpenRead local_file_path] (inl e) w1 /\
  existsb is_remote (trace o) = false /\
  forall (R : Type) (remote_store : W -> R),
    (forall c w', is_local c = true ->
                  remote_store (snd (h c w')) = remote_store w') ->
    remote_store (final o) = remote_store w.
Proof.
intros Hread o. subst o. simpl. rewrite Hread. simpl.
repeat split.
intros R remote_store Hframe.
specialize (Hframe (OpenRead local_file_path) w eq_refl).
now rewrite Hread in Hframe.
Qed.

End Claims.

(** ** Round trip through the remote store *)

Lemma string_app_assoc (a b c : string) :
  ((a ++ b) ++ c = a ++ (b ++ c))%string.
Proof. induction a as [|x a IH]; simpl; [reflexivity|now rewrite IH]. Qed.

Section RoundTrip.

Context {ClientContext UserCredential Folder W : Type}.
Variable h : handler ClientContext UserCredential Folder W.

Local Notation "'SharePoint'" := (SharePoint ClientContext).

(** What the collaborators are assumed to do: [disk w p] is the content of
  the local file [p] in [w], [folder_path f] the path [f] was resolved
  from. *)
Variable disk : W -> string -> option bytes.
Variable folder_path : Folder -> string.

Hypothesis read_returns_the_file :
  forall p w data w',
    h (OpenRead p) w = (inr data, w') -> disk w p = Some data.

Hypothesis write_stores_the_data :
  forall p data w w',
    h (OpenWrite p data) w = (inr tt, w') -> disk w' p = Some data.

Hypothesis lookup_keeps_the_path :
  forall ctx p w f w',
    h (GetFolderByServerRelativePath ctx p) w = (inr f, w') ->
    folder_path f = p.

Hypothesis upload_is_read_back :
  forall f n data w x w',
    h (FolderUploadFile f n data) w = (inr x, w') ->
    forall ctx r w'',
      h (FileOpenBinary ctx (folder_path f ++ "/" ++ n)) w' = (inr r, w'') ->
      Response.content r = data.

(** C3.  With collaborators that store what they are given, an
  [upload_file] that succeeds, followed by a [download_file] of the same
  remote name that succeeds, leaves in the destination a file named after
  the local file whose bytes are those of the local file. *)
Theorem upload_then_download_round_trip (self : SharePoint)
  (local_file_path sharepoint_destination destination : string) (w : W) :
  let up :=
    exec h (upload_file self local_file_path sharepoint_destination) w in
  let down :=
    exec h (download_file self
              (sharepoint_destination ++ "/" ++ basename local_file_path)
              destination) (final up) in
  result up = inr tt ->
  result down = inr tt ->
  exists data,
    disk w local_file_path = Some data /\
    disk (final down) (os_path_join destination (basename local_file_path))
    = Some data.
Proof.
intros up down. subst up down.
unfold download_file.
rewrite (basename_of_joined _ _ (basename_has_no_sep local_file_path)).
simpl.
destruct (h (OpenRead local_file_path) w) as [[e|data] w1] eqn:Hread;
  simpl; [discriminate|].
destruct (h (GetFolderByServerRelativePath _ _) w1) as [[e|f] w2] eqn:Hfolder;
  simpl; [discriminate|].
destruct (h (FolderUploadFile _ _ _) w2) as [[e|x] w3] eqn:Hupload;
  simpl; [discriminate|].
intros _.
destruct (h (FileOpenBinary _ _) w3) as [[e|r] w4] eqn:Hopen;
  simpl; [discriminate|].
assert (Hdata : Response.content r = data).
{ apply (upload_is_read_back _ _ _ _ _ _ Hupload (session self) r w4).
  rewrite (lookup_keeps_the_path _ _ _ _ _ Hfolder).
  match type of Hopen with
  | h (FileOpenBinary _ ?q) _ = _ =>
      match goal with
      | |- h (FileOpenBinary _ ?p) _ = _ =>
          replace p with q; [exact Hopen|]
      end
  end.
  repeat (simpl; rewrite string_app_assoc). reflexivity. }
rewrite Hdata.
destruct (h (PathExists destination) w4) as [[e|present] w5];
  simpl; [discriminate|].
destruct present; simpl.
- destruct (h (OpenWrite _ _) w5) as [[e|[]] w6] eqn:Hwrite;
    simpl; [discriminate|].
  intros _. exists data. eauto.
- destruct (h (Makedirs destination true) w5) as [[e|[]] w6];
    simpl; [discriminate|].
  destruct (h (OpenWrite _ _) w6) as [[e|[]] w7] eqn:Hwrite;
    simpl; [discriminate|].
  intros _. exists data. eauto.
Qed.

End RoundTrip.

(** ** The claims on the in-memory collaborators *)

Section OnInMemory.

Import InMemory.

(** C1, as stated, fails: [create_folder] on the folder [General] of the
  site [ps.all] sends [Shared Documents/General], which is neither
  [sites/ps.all/Shared Documents/General] nor that with a leading
  separator. *)
Lemma create_folder_sends_no_site_prefix :
  ~ (forall (self : SharePoint ClientContext) (o : operation) (w : world),
        Forall (fun p => p = site_prefixed "" self (op_path o))
          (paths_sent (trace (exec serve (invoke self o) w)))) /\
  ~ (forall (self : SharePoint ClientContext) (o : operation) (w : world),
        Forall (fun p => p = site_prefixed "/" self (op_path o))
          (paths_sent (trace (exec serve (invoke self o) w)))).
Proof.
split; intros Hclaim;
  specialize (Hclaim share (Op_create_folder "General" "test") w0);
  inversion Hclaim as [|p rest Hp _]; discriminate Hp.
Qed.

(** C2, as stated, fails: with a wrong password the provider raises a
  [ClientRequestException], and construction raises that exception, whose
  class is not [AuthConfigError]. *)
Lemma construction_error_is_the_providers :
  ~ (forall (url username password site_name : string) (doc : option string)
            (w : world) (e : exn),
        result (exec serve (new_session url username password site_name) w)
        = inl e ->
        exists e',
          result (exec serve
                    (SharePoint_init url username password site_name doc) w)
          = inl e' /\
          exn_class e' = "AuthConfigError").
Proof.
intros Hclaim.
destruct (Hclaim "https://company.sharepoint.com" "user@example.com" "wrong"
            "ps.all" None w0 (request_failed "401") eq_refl)
  as (e' & Hres & Hcls).
simpl in Hres. injection Hres as <-. discriminate Hcls.
Qed.

(** C4, as stated, fails: [upload_file] takes a folder path and does not
  begin with the shared lookup. *)
Lemma upload_file_skips_the_shared_lookup :
  ~ (forall (self : SharePoint ClientContext) (o : operation),
        takes_folder_path o = true ->
        exists body : Folder -> prog ClientContext UserCredential Folder
                                  (op_result o),
          invoke self o = Do (shared_lookup self (op_path o)) body).
Proof.
intros Hclaim.
destruct (Hclaim share (Op_upload_file "examples/test.csv" "General") eq_refl)
  as (body & Heq).
apply (f_equal first_call) in Heq. discriminate Heq.
Qed.

(** C8, as stated, fails: uploading a local file that does not exist fails
  with the [FileNotFoundError] of the read, which is none of the three
  kinds and wraps nothing. *)
Lemma failure_is_not_wrapped :
  ~ (forall (self : SharePoint ClientContext) (o : operation) (w : world)
            (e : exn),
        result (exec serve (invoke self o) w) = inl e ->
        exists path inner, wraps (op_name o) path inner e).
Proof.
intros Hclaim.
destruct (Hclaim share (Op_upload_file "examples/missing.csv" "General") w0
            (not_found "examples/missing.csv") eq_refl)
  as (path & inner & Hkind & _).
simpl in Hkind. intuition discriminate.
Qed.

(** The in-memory collaborators store what they are given. *)
Lemma serve_read_returns_the_file (p : string) (w : world) (data : bytes)
  (w' : world) :
  serve (OpenRead p) w = (inr data, w') -> on_disk w p = Some data.
Proof.
unfold on_disk. simpl. destruct (assoc (disk_files w) p); [|discriminate].
now intros [= <- _].
Qed.

Lemma serve_write_stores_the_data (p : string) (data : bytes)
  (w w' : world) :
  serve (OpenWrite p data) w = (inr tt, w') -> on_disk w' p = Some data.
Proof.
unfold on_disk. simpl. destruct (writable w p); [|discriminate].
intros [= <-]. simpl. now rewrite String.eqb_refl.
Qed.

Lemma serve_lookup_keeps_the_path (ctx : ClientContext) (p : string)
  (w : world) (f : Folder) (w' : world) :
  serve (GetFolderByServerRelativePath ctx p) w = (inr f, w') ->
  (fun x : Folder => x) f = p.
Proof. simpl. now intros [= <- _]. Qed.

Lemma serve_upload_is_read_back (f : Folder) (n : string) (data : bytes)
  (w : world) (x : File.t) (w' : world) :
  serve (FolderUploadFile f n data) w = (inr x, w') ->
  forall (ctx : ClientContext) (r : Response.t) (w'' : world),
    serve (FileOpenBinary ctx ((fun x : Folder => x) f ++ "/" ++ n)) w'
    = (inr r, w'') ->
    Response.content r = data.
Proof.
simpl. intros [= _ <-] ctx r w''. simpl. rewrite String.eqb_refl.
now intros [= <- _].
Qed.

(** ** The theorems at concrete inputs *)

(** A wrong password: construction raises the provider's exception. *)
Lemma construction_fails_with_provider_error_witness :
  exec serve
    (SharePoint_init "https://company.sharepoint.com" "user@example.com"
       "wrong" "ps.all" None) w0 =
  mk_outcome
    [ NewClientContext "https://company.sharepoint.com/sites/ps.all";
      NewUserCredential "user@example.com" "wrong";
      WithCredentials "https://company.sharepoint.com/sites/ps.all"
        ("user@example.com", "wrong") ]
    (inl (request_failed "401")) w0.
Proof.
exact (proj1 (construction_fails_with_provider_error serve
                "https://company.sharepoint.com" "user@example.com" "wrong"
                "ps.all" None w0 (request_failed "401") eq_refl)).
Defined.

(** [examples/test.csv] uploaded to [General] and downloaded into the new
  directory [downloads]. *)
Lemma upload_then_download_round_trip_witness :
  exists data,
    on_disk w0 "examples/test.csv" = Some data /\
    on_disk
      (final
         (exec serve (download_file share "General/test.csv" "downloads")
            (final
               (exec serve (upload_file share "examples/test.csv" "General")
                  w0))))
      "downloads/test.csv" = Some data.
Proof.
exact (upload_then_download_round_trip serve on_disk (fun x : Folder => x)
         serve_read_returns_the_file serve_write_stores_the_data
         serve_lookup_keeps_the_path serve_upload_is_read_back
         share "examples/test.csv" "General" "downloads" w0
         eq_refl eq_refl).
Defined.

Lemma upload_sends_base_name_and_content_witness :
  trace (exec serve (upload_file share "examples/test.csv" "General") w0) =
    [ OpenRead "examples/test.csv";
      GetFolderByServerRelativePath
        "https://company.sharepoint.com/sites/ps.all"
        "/sites/ps.all/Shared Documents/General";
      FolderUploadFile "/sites/ps.all/Shared Documents/General" "test.csv"
        test_csv ] /\
  result (exec serve (upload_file share "examples/test.csv" "General") w0)
  = inr tt.
Proof.
rewrite (upload_sends_base_name_and_content serve share "examples/test.csv"
           "General" w0 w0 w0 test_csv
           "/sites/ps.all/Shared Documents/General" eq_refl eq_refl).
split; reflexivity.
Defined.

(** A download into a directory that does not exist yet. *)
Lemma download_writes_content_under_base_name_witness :
  exec serve (download_file share "General/test.csv" "downloads")
    (final (exec serve (upload_file share "examples/test.csv" "General") w0))
  = mk_outcome
      [ FileOpenBinary "https://company.sharepoint.com/sites/ps.all"
          "/sites/ps.all/Shared Documents/General/test.csv";
        PathExists "downloads";
        Makedirs "downloads" true;
        OpenWrite "downloads/test.csv" test_csv ]
      (inr tt)
      (snd (serve (OpenWrite "downloads/test.csv" test_csv)
              (snd (serve (Makedirs "downloads" true)
                      (final (exec serve
                                (upload_file share "examples/test.csv"
                                   "General") w0)))))).
Proof.
set (wu := final (exec serve (upload_file share "examples/test.csv" "General")
                    w0)).
exact (download_writes_content_under_base_name serve share
         "General/test.csv" "downloads" wu wu wu
         (snd (serve (Makedirs "downloads" true) wu))
         (snd (serve (OpenWrite "downloads/test.csv" test_csv)
                 (snd (serve (Makedirs "downloads" true) wu))))
         (Response.mk test_csv) false eq_refl eq_refl eq_refl eq_refl).
Defined.

(** An upload of a missing local file fails with the exception of the
  read. *)
Lemma failures_reach_the_caller_unchanged_witness :
  exists t c w,
    trace (exec serve
             (invoke share (Op_upload_file "examples/missing.csv" "General"))
             w0) = t ++ [c] /\
    serve c w = (inl (not_found "examples/missing.csv"), w0).
Proof.
exact (proj2 (proj2 (failures_reach_the_caller_unchanged serve share
                       (Op_upload_file "examples/missing.csv" "General") w0)
                (not_found "examples/missing.csv")) eq_refl).
Defined.

Lemma listings_return_what_the_api_reports_witness :
  exec serve (get_files_list share "General") w0 =
    mk_outcome
      [ GetFolderByServerRelativeUrl
          "https://company.sharepoint.com/sites/ps.all"
          "Shared Documents/General";
        ExpandGet "Shared Documents/General" ["Files"; "Folders"];
        FolderFiles "Shared Documents/General" ]
      (inr [report_jpg; report_csv]) w0 /\
  exec serve (get_folder_list share "General") w0 =
    mk_outcome
      [ GetFolderByServerRelativeUrl
          "https://company.sharepoint.com/sites/ps.all"
          "Shared Documents/General";
        ExpandGet "Shared Documents/General" ["Folders"];
        FolderFolders "Shared Documents/General" ]
      (inr ["Shared Documents/General/Reports"]) w0.
Proof.
destruct (listings_return_what_the_api_reports serve share "General" w0 w0
            "Shared Documents/General" eq_refl) as [Hfiles Hfolders].
split.
- exact (Hfiles "Shared Documents/General" w0 [report_jpg; report_csv] w0
           eq_refl eq_refl).
- exact (Hfolders "Shared Documents/General" w0
           ["Shared Documents/General/Reports"] w0 eq_refl eq_refl).
Defined.

Lemma failed_local_read_sends_nothing_witness :
  exec serve (upload_file share "examples/missing.csv" "General") w0 =
    mk_outcome [OpenRead "examples/missing.csv"]
      (inl (not_found "examples/missing.csv")) w0 /\
  remote_files
    (final (exec serve (upload_file share "examples/missing.csv" "General")
              w0))
  = remote_files w0.
Proof.
destruct (failed_local_read_sends_nothing serve share "examples/missing.csv"
            "General" w0 w0 (not_found "examples/missing.csv") eq_refl)
  as (Hrun & _ & Hstore).
split; [exact Hrun|].
apply (Hstore _ remote_files).
intros c w Hlocal. destruct c; try discriminate Hlocal; simpl.
- now destruct (assoc (disk_files w) path).
- reflexivity.
- now destruct (exists_on_disk w path && negb exist_ok)%bool.
- now destruct (writable w path).
Defined.

End OnInMemory.

(** ** Further properties of the operations *)

Lemma basename_is_relative (p : string) : startswith_sep (basename p) = false.
Proof.
pose proof (basename_has_no_sep p) as Hno.
destruct (basename p) as [|c rest]; [reflexivity|].
simpl in *. now destruct (is_sep c).
Qed.

Lemma join_of_relative (a b : string) :
  startswith_sep b = false -> os_path_join a b = (a ++ join_sep a ++ b)%string.
Proof.
intros Hb. unfold os_path_join, join_sep. rewrite Hb.
now destruct (String.eqb a "" || endswith_sep a)%bool.
Qed.

Lemma string_length_app (a b : string) :
  String.length (a ++ b) = (String.length a + String.length b)%nat.
Proof. induction a as [|c a IH]; simpl; [reflexivity|now rewrite IH]. Qed.

(** A string is never its own proper extension to the left. *)
Lemma nonempty_prefix_changes (a b : string) :
  a <> ""%string -> String.eqb (a ++ b) b = false /\ String.eqb b (a ++ b) = false.
Proof.
intros Ha.
assert (Hne : (a ++ b)%string <> b).
{ intros Heq. apply (f_equal String.length) in Heq.
  rewrite string_length_app in Heq.
  destruct a; [congruence|simpl in Heq; lia]. }
split; apply String.eqb_neq; congruence.
Qed.

Section Further.

Context {ClientContext UserCredential Folder W : Type}.
Variable h : handler ClientContext UserCredential Folder W.

Local Notation "'prog'" := (prog ClientContext UserCredential Folder).
Local Notation "'SharePoint'" := (SharePoint ClientContext).
Local Open Scope prog_scope.

(** X1.  No operation builds a session or presents credentials again, and
  every call that resolves a folder or opens a file goes through the
  session stored in the instance. *)
Theorem operations_reuse_the_session (self : SharePoint) (o : operation)
  (w : W) :
  Forall
    (fun c =>
       is_provider_call c = false /\
       (api_context c = None \/ api_context c = Some (session self)))
    (trace (exec h (invoke self o) w)).
Proof.
destruct o; simpl; answer_calls h;
  try match goal with |- context [negb ?b] => destruct b end;
  simpl; answer_calls h;
  repeat first
    [ apply Forall_nil
    | apply Forall_cons; [split; [reflexivity|simpl; auto]|] ].
Qed.

(** X2.  Construction followed by an operation: when the provider accepts,
  the operation runs on the instance that holds the configuration as given
  ([doc] being [Shared Documents] when omitted) and, as its session, what
  [with_credentials] returned; the context is built for
  [{url}/sites/{site_name}]. *)
Theorem construction_then_operation
  (url username password site_name : string) (doc : option string)
  (o : operation) (w w1 w2 w3 : W)
  (ctx : ClientContext) (cred : UserCredential) (s : ClientContext) :
  h (NewClientContext (url ++ "/sites/" ++ site_name)) w = (inr ctx, w1) ->
  h (NewUserCredential username password) w1 = (inr cred, w2) ->
  h (WithCredentials ctx cred) w2 = (inr s, w3) ->
  let self :=
    mk_SharePoint url username password site_name
      (match doc with Some d => d | None => "Shared Documents" end) s in
  let run := exec h (invoke self o) w3 in
  exec h
    (self' <- SharePoint_init url username password site_name doc ;;
     invoke self' o) w =
  mk_outcome
    ([ NewClientContext (url ++ "/sites/" ++ site_name);
       NewUserCredential username password;
       WithCredentials ctx cred ] ++ trace run)
    (result run) (final run).
Proof.
intros Hctx Hcred Hwith self run. subst self run.
rewrite exec_bind.
unfold SharePoint_init, __post_init__, new_session, default_doc.
simpl in Hctx. simpl. rewrite Hctx. simpl. rewrite Hcred. simpl. rewrite Hwith. simpl.
reflexivity.
Qed.

(** X3.  What the operations leave alone: the three listing operations
  issue remote calls only and none that creates anything; [create_folder]
  issues remote calls only and uploads nothing; [upload_file] creates
  nothing on the local disk; [download_file] creates nothing in the remote
  store. *)
Theorem operations_footprint (self : SharePoint) (o : operation) (w : W) :
  let t := trace (exec h (invoke self o) w) in
  match o with
  | Op_get_files_list _ | Op_get_folder_list _
  | Op_get_file_properties_from_folder _ =>
      forallb (fun c => is_remote c && negb (changes_remote c))%bool t = true
  | Op_create_folder _ _ =>
      forallb
        (fun c => is_remote c &&
                  match c with FolderUploadFile _ _ _ => false | _ => true end)%bool
        t = true
  | Op_upload_file _ _ => forallb (fun c => negb (changes_disk c)) t = true
  | Op_download_file _ _ =>
      forallb (fun c => negb (changes_remote c)) t = true
  end.
Proof.
destruct o; simpl; answer_calls h;
  try match goal with |- context [negb ?b] => destruct b end;
  simpl; answer_calls h; reflexivity.
Qed.

(** X4.  When opening the remote file raises, [download_file] has issued
  that call and nothing else: the destination is neither tested nor
  created, no file is written, and whatever part of the world the remote
  calls leave alone is as it was. *)
Theorem failed_remote_read_leaves_disk_alone (self : SharePoint)
  (sharepoint_source destination : string) (w w1 : W) (e : exn) :
  h (FileOpenBinary (session self) (site_prefixed "/" self sharepoint_source))
    w = (inl e, w1) ->
  let o := exec h (download_file self sharepoint_source destination) w in
  o = mk_outcome
        [FileOpenBinary (session self)
           (site_prefixed "/" self sharepoint_source)]
        (inl e) w1 /\
  existsb is_local (trace o) = false /\
  forall (D : Type) (disk : W -> D),
    (forall c w', is_remote c = true -> disk (snd (h c w')) = disk w') ->
    disk (final o) = disk w.
Proof.
intros Hopen o. subst o.
pose proof Hopen as Hopen'.
unfold site_prefixed in Hopen. simpl in Hopen.
simpl. rewrite Hopen. simpl.
repeat split.
intros D disk Hframe.
specialize (Hframe _ w (eq_refl : is_remote (FileOpenBinary (session self)
                          (site_prefixed "/" self sharepoint_source)) = true)).
now rewrite Hopen' in Hframe.
Qed.

(** X5.  When the destination does not exist and creating it raises,
  [download_file] fails with that exception after the remote content was
  fetched, and no file is opened for writing. *)
Theorem failed_makedirs_writes_nothing (self : SharePoint)
  (sharepoint_source destination : string) (w w1 w2 w3 : W)
  (response : Response.t) (e : exn) :
  h (FileOpenBinary (session self) (site_prefixed "/" self sharepoint_source))
    w = (inr response, w1) ->
  h (PathExists destination) w1 = (inr false, w2) ->
  h (Makedirs destination true) w2 = (inl e, w3) ->
  let o := exec h (download_file self sharepoint_source destination) w in
  o = mk_outcome
        [ FileOpenBinary (session self)
            (site_prefixed "/" self sharepoint_source);
          PathExists destination;
          Makedirs destination true ]
        (inl e) w3 /\
  paths_written (trace o) = [].
Proof.
intros Hopen Hexists Hdir o. subst o.
unfold site_prefixed in Hopen. simpl in Hopen.
simpl. rewrite Hopen. simpl. rewrite Hexists. simpl. rewrite Hdir.
split; reflexivity.
Qed.

(** X6.  Whatever the collaborators answer, [download_file] opens at most
  one local file for writing, and its path is the destination, one
  separator unless the destination is empty or already ends with one, and
  the base name of the source, which contains no separator: the remote
  name cannot redirect the write to another directory. *)
Theorem download_writes_inside_destination (self : SharePoint)
  (sharepoint_source destination : string) (w : W) :
  let t := trace (exec h (download_file self sharepoint_source destination) w) in
  let target :=
    (destination ++ join_sep destination ++ basename sharepoint_source)%string in
  (paths_written t = [] \/ paths_written t = [target]) /\
  has_sep (basename sharepoint_source) = false.
Proof.
intros t target. subst t target.
split; [|apply basename_has_no_sep].
rewrite <- (join_of_relative destination _
              (basename_is_relative sharepoint_source)).
unfold download_file, _save_file.
generalize (os_path_join destination (basename sharepoint_source)) as target.
intros target. simpl. answer_calls h; auto.
match goal with |- context [negb ?b] => destruct b end;
  simpl; answer_calls h; auto.
Qed.

(** X7.  [_save_file] with a file name that starts with a separator:
  the destination is tested first and, when it does not exist, created
  with [makedirs(exist_ok=True)] before anything is written; yet
  [os.path.join] drops the destination, so the one file opened for writing
  is the file name itself, and the call returns when that write does. *)
Theorem save_file_with_absolute_name (file_name : string) (file_obj : bytes)
  (destination : string) (w : W) :
  startswith_sep file_name = true ->
  let t := trace (exec h (_save_file file_name file_obj destination) w) in
  (hd_error t = Some (PathExists destination) /\
   (paths_written t = [] \/ paths_written t = [file_name])) /\
  (forall (present : bool) (w1 w2 : W),
      h (PathExists destination) w = (inr present, w1) ->
      (if present then w2 = w1
       else h (Makedirs destination true) w1 = (inr tt, w2)) ->
      exec h (_save_file file_name file_obj destination) w =
        mk_outcome
          ([PathExists destination] ++
           (if present then [] else [Makedirs destination true]) ++
           [OpenWrite file_name file_obj])
          (match fst (h (OpenWrite file_name file_obj) w2) with
           | inl e => inl e
           | inr _ => inr tt
           end)
          (snd (h (OpenWrite file_name file_obj) w2))) /\
  (forall (w1 w2 : W) (e : exn),
      h (PathExists destination) w = (inr false, w1) ->
      h (Makedirs destination true) w1 = (inl e, w2) ->
      exec h (_save_file file_name file_obj destination) w =
        mk_outcome [PathExists destination; Makedirs destination true]
          (inl e) w2).
Proof.
intros Habs t. subst t.
unfold _save_file, os_path_join. rewrite Habs.
split; [|split].
- simpl. answer_calls h; auto.
  match goal with |- context [negb ?b] => destruct b end;
    simpl; answer_calls h; auto.
- intros present w1 w2 Hexists Hdir. simpl. rewrite Hexists.
  destruct present; simpl.
  + subst w2. now destruct (h (OpenWrite file_name file_obj) w1) as [[e|[]] w3].
  + rewrite Hdir. simpl.
    now destruct (h (OpenWrite file_name file_obj) w2) as [[e|[]] w3].
- intros w1 w2 e Hexists Hdir. simpl. rewrite Hexists. simpl.
  now rewrite Hdir.
Qed.

(** X8.  [decorator_root_folder], for any decorated function: when the
  lookup raises, the function does not run and the lookup is the only call;
  when it returns a handle, the run is the lookup followed by the run of
  the function on that handle, so that two path arguments resolved to the
  same handle in the same world give the same result. *)
Theorem decorated_function_runs_on_the_handle {Rest R : Type}
  (func : SharePoint -> Folder -> Rest -> prog R)
  (self : SharePoint) (parent_folder : string) (rest : Rest) (w : W) :
  (forall e w',
      h (shared_lookup self parent_folder) w = (inl e, w') ->
      exec h (decorator_root_folder func self parent_folder rest) w =
        mk_outcome [shared_lookup self parent_folder] (inl e) w') /\
  (forall folder w',
      h (shared_lookup self parent_folder) w = (inr folder, w') ->
      exec h (decorator_root_folder func self parent_folder rest) w =
        mk_outcome
          (shared_lookup self parent_folder
             :: trace (exec h (func self folder rest) w'))
          (result (exec h (func self folder rest) w'))
          (final (exec h (func self folder rest) w'))) /\
  (forall other folder w',
      h (shared_lookup self parent_folder) w = (inr folder, w') ->
      h (shared_lookup self other) w = (inr folder, w') ->
      result (exec h (decorator_root_folder func self parent_folder rest) w)
      = result (exec h (decorator_root_folder func self other rest) w) /\
      final (exec h (decorator_root_folder func self parent_folder rest) w)
      = final (exec h (decorator_root_folder func self other rest) w)).
Proof.
unfold shared_lookup, library_prefixed. simpl.
split; [|split].
- intros e w' Hraise. now rewrite Hraise.
- intros folder w' Hfound. now rewrite Hfound.
- intros other folder w' Hfound Hother.
  rewrite Hfound, Hother. split; reflexivity.
Qed.

(** X9.  Once the parent folder is resolved, [create_folder] issues one
  request, the addition of [new_folder] under that parent, without asking
  first whether it exists; it returns [None] when the request returns and
  fails as the request does otherwise. *)
Theorem create_folder_adds_under_the_parent (self : SharePoint)
  (parent_folder new_folder : string) (w w1 : W) (folder : Folder) :
  h (shared_lookup self parent_folder) w = (inr folder, w1) ->
  exec h (create_folder self parent_folder new_folder) w =
    mk_outcome
      [shared_lookup self parent_folder; FoldersAdd folder new_folder]
      (match fst (h (FoldersAdd folder new_folder) w1) with
       | inl e => inl e
       | inr _ => inr tt
       end)
      (snd (h (FoldersAdd folder new_folder) w1)).
Proof.
intros Hlookup. unfold shared_lookup, library_prefixed in *.
simpl in Hlookup. simpl. rewrite Hlookup. simpl.
now destruct (h _ w1) as [[e|x] w2].
Qed.

(** X10.  When the local file is read and resolving the destination folder
  raises, [upload_file] fails with that exception and sends no upload. *)
Theorem failed_folder_lookup_uploads_nothing (self : SharePoint)
  (local_file_path sharepoint_destination : string) (w w1 w2 : W)
  (data : bytes) (e : exn) :
  h (OpenRead local_file_path) w = (inr data, w1) ->
  h (GetFolderByServerRelativePath (session self)
       (site_prefixed "/" self sharepoint_destination)) w1 = (inl e, w2) ->
  let o := exec h (upload_file self local_file_path sharepoint_destination) w in
  o = mk_outcome
        [ OpenRead local_file_path;
          GetFolderByServerRelativePath (session self)
            (site_prefixed "/" self sharepoint_destination) ]
        (inl e) w2 /\
  existsb changes_remote (trace o) = false.
Proof.
intros Hread Hfolder o. subst o.
unfold site_prefixed in Hfolder. simpl in Hfolder.
simpl. rewrite Hread. simpl. rewrite Hfolder.
split; reflexivity.
Qed.

Local Arguments String.eqb : simpl never.

(** X11.  For one and the same folder argument, [upload_file] and the
  decorated operations never hand the remote API the same path string:
  [upload_file] never sends [{doc}/{path}], and [create_folder],
  [get_files_list], [get_folder_list] and
  [get_file_properties_from_folder] never send
  [/sites/{site_name}/{doc}/{path}]. *)
Theorem upload_and_listing_paths_differ (self : SharePoint)
  (local_file_path new_folder path : string) (w : W) :
  let sent (o : operation) := paths_sent (trace (exec h (invoke self o) w)) in
  existsb (String.eqb (library_prefixed self path))
    (sent (Op_upload_file local_file_path path)) = false /\
  existsb (String.eqb (site_prefixed "/" self path))
    (sent (Op_create_folder path new_folder)) = false /\
  existsb (String.eqb (site_prefixed "/" self path))
    (sent (Op_get_files_list path)) = false /\
  existsb (String.eqb (site_prefixed "/" self path))
    (sent (Op_get_folder_list path)) = false /\
  existsb (String.eqb (site_prefixed "/" self path))
    (sent (Op_get_file_properties_from_folder path)) = false.
Proof.
intros sent. subst sent.
destruct (nonempty_prefix_changes ("/sites/" ++ site_name self ++ "/")
            (library_prefixed self path)) as [Hsl Hls]; [discriminate|].
unfold library_prefixed in *. rewrite !string_app_assoc in Hsl, Hls.
unfold site_prefixed. simpl in *.
repeat split; answer_calls h; simpl; rewrite ?Hsl, ?Hls; reflexivity.
Qed.

End Further.

(** ** The further properties at concrete inputs *)

Section FurtherOnInMemory.

Import InMemory.

(** The remote store once [examples/test.csv] is uploaded to [General]. *)
Local Notation "'uploaded_world'" :=
  (final (exec serve (upload_file share "examples/test.csv" "General") w0)).

Lemma construction_then_operation_witness :
  exec serve
    (bind
       (SharePoint_init "https://company.sharepoint.com" "user@example.com"
          "secret" "ps.all" None)
       (fun self' => invoke self' (Op_get_files_list "General"))) w0 =
  mk_outcome
    [ NewClientContext "https://company.sharepoint.com/sites/ps.all";
      NewUserCredential "user@example.com" "secret";
      WithCredentials "https://company.sharepoint.com/sites/ps.all"
        ("user@example.com", "secret");
      GetFolderByServerRelativeUrl
        "https://company.sharepoint.com/sites/ps.all"
        "Shared Documents/General";
      ExpandGet "Shared Documents/General" ["Files"; "Folders"];
      FolderFiles "Shared Documents/General" ]
    (inr [report_jpg; report_csv]) w0.
Proof.
exact (construction_then_operation serve "https://company.sharepoint.com"
         "user@example.com" "secret" "ps.all" None
         (Op_get_files_list "General") w0 w0 w0 w0
         "https://company.sharepoint.com/sites/ps.all"
         ("user@example.com", "secret")
         "https://company.sharepoint.com/sites/ps.all"
         eq_refl eq_refl eq_refl).
Defined.

(** A download of a remote file that does not exist. *)
Lemma failed_remote_read_leaves_disk_alone_witness :
  exec serve (download_file share "General/missing.bin" "downloads") w0 =
  mk_outcome
    [ FileOpenBinary "https://company.sharepoint.com/sites/ps.all"
        "/sites/ps.all/Shared Documents/General/missing.bin" ]
    (inl (request_failed "404")) w0.
Proof.
exact (proj1 (failed_remote_read_leaves_disk_alone serve share
                "General/missing.bin" "downloads" w0 w0
                (request_failed "404") eq_refl)).
Defined.

(** A download into a directory that cannot be created. *)
Lemma failed_makedirs_writes_nothing_witness :
  result
    (exec (Faulty.serve Faulty.is_makedirs Faulty.denied)
       (download_file share "General/test.csv" "downloads") uploaded_world)
  = inl Faulty.denied /\
  paths_written
    (trace
       (exec (Faulty.serve Faulty.is_makedirs Faulty.denied)
          (download_file share "General/test.csv" "downloads")
          uploaded_world))
  = [].
Proof.
destruct (failed_makedirs_writes_nothing
            (Faulty.serve Faulty.is_makedirs Faulty.denied) share
            "General/test.csv" "downloads"
            uploaded_world uploaded_world uploaded_world uploaded_world
            (Response.mk test_csv) Faulty.denied eq_refl eq_refl eq_refl)
  as [Hrun Hnone].
split; [now rewrite Hrun|exact Hnone].
Defined.

(** [/tmp] exists, [downloads] does not: the destination is created and
  the file lands in [/tmp]. *)
Lemma save_file_with_absolute_name_witness :
  exec serve (_save_file "/tmp/report.csv" test_csv "downloads")
    (snd (serve (Makedirs "/tmp" true) w0)) =
  mk_outcome
    [ PathExists "downloads";
      Makedirs "downloads" true;
      OpenWrite "/tmp/report.csv" test_csv ]
    (inr tt)
    (snd (serve (OpenWrite "/tmp/report.csv" test_csv)
            (snd (serve (Makedirs "downloads" true)
                    (snd (serve (Makedirs "/tmp" true) w0)))))) /\
  on_disk
    (final
       (exec serve (_save_file "/tmp/report.csv" test_csv "downloads")
          (snd (serve (Makedirs "/tmp" true) w0))))
    "/tmp/report.csv" = Some test_csv /\
  on_disk
    (final
       (exec serve (_save_file "/tmp/report.csv" test_csv "downloads")
          (snd (serve (Makedirs "/tmp" true) w0))))
    "downloads/report.csv" = None.
Proof.
pose proof
  (proj1 (proj2 (save_file_with_absolute_name serve "/tmp/report.csv"
                   test_csv "downloads"
                   (snd (serve (Makedirs "/tmp" true) w0)) eq_refl))
     false
     (snd (serve (Makedirs "/tmp" true) w0))
     (snd (serve (Makedirs "downloads" true)
             (snd (serve (Makedirs "/tmp" true) w0))))
     eq_refl eq_refl) as Hrun.
split; [exact Hrun|]. rewrite Hrun. split; reflexivity.
Defined.

(** [create_folder] when the folder lookup raises. *)
Lemma decorated_function_runs_on_the_handle_witness :
  exec (Faulty.serve Faulty.is_folder_lookup Faulty.unreachable)
    (create_folder share "General" "test") w0 =
  mk_outcome
    [ GetFolderByServerRelativeUrl
        "https://company.sharepoint.com/sites/ps.all"
        "Shared Documents/General" ]
    (inl Faulty.unreachable) w0.
Proof.
exact (proj1 (decorated_function_runs_on_the_handle
                (Faulty.serve Faulty.is_folder_lookup Faulty.unreachable)
                create_folder_body share "General" "test" w0)
         Faulty.unreachable w0 eq_refl).
Defined.

Lemma create_folder_adds_under_the_parent_witness :
  exec serve (create_folder share "General" "test") w0 =
  mk_outcome
    [ GetFolderByServerRelativeUrl
        "https://company.sharepoint.com/sites/ps.all"
        "Shared Documents/General";
      FoldersAdd "Shared Documents/General" "test" ]
    (inr tt)
    (snd (serve (FoldersAdd "Shared Documents/General" "test") w0)).
Proof.
exact (create_folder_adds_under_the_parent serve share "General" "test"
         w0 w0 "Shared Documents/General" eq_refl).
Defined.

Lemma failed_folder_lookup_uploads_nothing_witness :
  exec (Faulty.serve Faulty.is_folder_lookup Faulty.unreachable)
    (upload_file share "examples/test.csv" "General") w0 =
  mk_outcome
    [ OpenRead "examples/test.csv";
      GetFolderByServerRelativePath
        "https://company.sharepoint.com/sites/ps.all"
        "/sites/ps.all/Shared Documents/General" ]
    (inl Faulty.unreachable) w0.
Proof.
exact (proj1 (failed_folder_lookup_uploads_nothing
                (Faulty.serve Faulty.is_folder_lookup Faulty.unreachable)
                share "examples/test.csv" "General" w0 w0 w0 test_csv
                Faulty.unreachable eq_refl eq_refl)).
Defined.

End FurtherOnInMemory.
